(** * KisanMitra: the advisory pipeline of the farming-advice gateway

    A shallow embedding of [utils.js] (weather normalisation and the alert
    rules) and of the server entry points (bearer guard, request handler,
    prompt template, error mapping), with the properties the specification
    states about them.  The repository has four entry points: the
    authenticated server (part_000, and again as the second half of
    part_001 with an inline [/mcp] descriptor), the richer server (first
    half of part_001) and the minimal server (part_002). *)

From Stdlib Require Import String Ascii List ZArith Bool Lia.
From Stdlib Require Import Floats.
Import ListNotations.

Local Open Scope string_scope.

(** ** JavaScript values used by the code

    A JS number is an IEEE-754 binary64, which is what Rocq's primitive
    [float] is; [null] and [undefined] fields are [None]. *)

Definition number := float.

(** A JS string is modelled as a [string] holding its UTF-8 bytes.  Every
    pattern the code searches for or strips is ASCII, so [includes],
    [startsWith] and [substring 7] agree with their UTF-16 originals. *)

Module Js.

(** [ToNumber] on a [number | null] operand: [null] converts to [+0]. *)
Definition toNumber (v : option number) : number :=
  match v with
  | Some n => n
  | None => 0%float
  end.

(** [a > k] and [a < k] for a [number | null] left operand and a numeric
    literal on the right; a comparison with [NaN] is [false]. *)
Definition gt (a : option number) (k : float) : bool :=
  PrimFloat.ltb k (toNumber a).

Definition lt (a : option number) (k : float) : bool :=
  PrimFloat.ltb (toNumber a) k.

(** [ToBoolean]: the falsy numbers are [+0], [-0] and [NaN]; the falsy
    string is the empty one; [undefined] and [null] are falsy. *)
Definition truthyNumber (n : number) : bool :=
  negb (PrimFloat.is_zero n || PrimFloat.is_nan n).

Definition truthyString (s : string) : bool :=
  negb (String.eqb s "").

(** [v || null] on a number that may be absent. *)
Definition numberOrNull (v : option number) : option number :=
  match v with
  | Some n => if truthyNumber n then Some n else None
  | None => None
  end.

(** [v || fallback] on a string that may be absent. *)
Definition stringOr (v : option string) (fallback : string) : string :=
  match v with
  | Some s => if truthyString s then s else fallback
  | None => fallback
  end.

(** The value of a string that survives a [!v] guard. *)
Definition truthy (v : option string) : option string :=
  match v with
  | Some s => if truthyString s then Some s else None
  | None => None
  end.

(** [!!v] on a string that may be absent. *)
Definition toBoolean (v : option string) : bool :=
  match v with
  | Some s => truthyString s
  | None => false
  end.

(** [String.prototype.startsWith]. *)
Definition startsWith (s pre : string) : bool := String.prefix pre s.

(** [String.prototype.includes]: [search] occurs somewhere in [s]. *)
Fixpoint includes (s search : string) : bool :=
  String.prefix search s ||
  match s with
  | EmptyString => false
  | String _ s' => includes s' search
  end.

(** [s.substring(start)]: [s] without its first [start] code units. *)
Fixpoint substring (start : nat) (s : string) : string :=
  match start, s with
  | O, _ => s
  | S n, String _ s' => substring n s'
  | S _, EmptyString => EmptyString
  end.

(** A template-literal hole [${v}] that holds a string or [undefined]. *)
Definition holeString (v : option string) : string :=
  match v with
  | Some s => s
  | None => "undefined"
  end.

Section NumberToString.

(** [Number.prototype.toString] is the runtime's; the development is
    parametric in it. *)
Variable numberToString : number -> string.

(** A template-literal hole [${v}] that holds a number or [null]. *)
Definition holeNumber (v : option number) : string :=
  match v with
  | Some n => numberToString n
  | None => "null"
  end.

End NumberToString.

End Js.

Definition LF : string := String "010"%char EmptyString.

(** ** Exceptions

    The two upstream clients throw differently shaped errors: axios attaches
    the HTTP reply as [response], the generation SDK carries [status] and
    [code] on the error itself and has no [response] property.  Reading a
    property of [undefined] throws a [TypeError]. *)

Record AxiosError := mkAxiosError {
  axios_response_status : option Z;
  axios_code : option string;
  axios_message : string
}.

Record APIError := mkAPIError {
  api_status : option Z;
  api_code : option string;
  api_message : string
}.

Inductive jsError :=
| FromAxios (e : AxiosError)
| FromOpenAI (e : APIError)
| TypeError (msg : string).

(** [err.response?.status] *)
Definition response_status (err : jsError) : option Z :=
  match err with
  | FromAxios e => axios_response_status e
  | FromOpenAI _ => None
  | TypeError _ => None
  end.

(** [err.code] *)
Definition code (err : jsError) : option string :=
  match err with
  | FromAxios e => axios_code e
  | FromOpenAI e => api_code e
  | TypeError _ => None
  end.

(** [err.message] *)
Definition message (err : jsError) : string :=
  match err with
  | FromAxios e => axios_message e
  | FromOpenAI e => api_message e
  | TypeError msg => msg
  end.

(** [x === k] for a status that may be [undefined]. *)
Definition statusIs (v : option Z) (k : Z) : bool :=
  match v with
  | Some n => Z.eqb n k
  | None => false
  end.

(** [x === k] for a string that may be [undefined]. *)
Definition stringIs (v : option string) (k : string) : bool :=
  match v with
  | Some s => String.eqb s k
  | None => false
  end.

(** ** The two upstream providers *)

(** The weather provider's reply, [{weather:[{description}], main:{temp},
    wind:{speed}}]; every level may be absent ([None] is [undefined] or
    [null]). *)
Module OpenWeather.

Record entry := mkEntry { entry_description : option string }.
Record mainBlock := mkMain { main_temp : option number }.
Record windBlock := mkWind { wind_speed : option number }.

Record data := mkData {
  weather : option (list entry);
  main : option mainBlock;
  wind : option windBlock
}.

End OpenWeather.

(** The generation provider's request and reply. *)
Module OpenAI.

Record chatMessage := mkMessage { role : string; content : string }.

Record params := mkParams {
  model : string;
  messages : list chatMessage;
  temperature : option number;
  max_tokens : option Z
}.

Record choice := mkChoice { message_content : option string }.
Record chatCompletion := mkCompletion { choices : list choice }.

End OpenAI.

(** ** Effects: upstream calls and exceptions

    Every awaited upstream call is appended to a log, so a property can say
    which providers a request reached.  An exception aborts the rest of a
    computation up to the enclosing [try].  Console output is not part of
    the model. *)

Inductive result (A : Type) :=
| Ok (a : A)
| Throw (err : jsError).

Arguments Ok {A} a.
Arguments Throw {A} err.

Inductive upstreamCall :=
| WeatherGet (url : string)
| ChatCompletionsCreate (p : OpenAI.params).

Definition IO (A : Type) : Type :=
  list upstreamCall -> result A * list upstreamCall.

Definition ret {A} (a : A) : IO A := fun log => (Ok a, log).

Definition bind {A B} (m : IO A) (k : A -> IO B) : IO B :=
  fun log =>
    match m log with
    | (Ok a, log') => k a log'
    | (Throw err, log') => (Throw err, log')
    end.

Definition liftResult {A} (r : result A) : IO A := fun log => (r, log).

(** [await] of a call to a provider: the call is logged, then its reply or
    its exception is delivered. *)
Definition await {A} (c : upstreamCall) (reply : result A) : IO A :=
  fun log => (reply, (log ++ [c])%list).

(** [try { body } catch (err) { handler err }] *)
Definition tryCatch {A} (body : IO A) (handler : jsError -> IO A) : IO A :=
  fun log =>
    match body log with
    | (Ok a, log') => (Ok a, log')
    | (Throw err, log') => handler err log'
    end.

Declare Scope io_scope.
Delimit Scope io_scope with io.
Notation "x <- m ;; k" := (bind m (fun x => k))
  (at level 61, m at next level, right associativity) : io_scope.

(** The providers as a test double sees them: deterministic functions of the
    request. *)
Record upstreams := mkUpstreams {
  axios_get : string -> result OpenWeather.data;
  chat_completions_create : OpenAI.params -> result OpenAI.chatCompletion
}.

(** [process.env], the entries the code reads. *)
Record processEnv := mkEnv {
  OPENWEATHER_API_KEY : option string;
  MCP_BEARER_TOKEN : option string;
  NODE_ENV : option string
}.

(** What the runtime supplies to one request: the clock reading behind
    [new Date().toISOString()] and the draw behind [Math.random()]. *)
Record host := mkHost {
  nowISOString : string;
  mathRandom : number
}.

(** ** utils.js *)

Record WeatherReading := mkReading {
  description : string;
  temp : option number;
  wind : option number
}.

(** [weatherData.weather?.[0]?.description] *)
Definition firstDescription (weatherData : OpenWeather.data) : option string :=
  match OpenWeather.weather weatherData with
  | Some (e :: _) => OpenWeather.entry_description e
  | Some [] => None
  | None => None
  end.

(** [weatherData.main?.temp] *)
Definition mainTemp (weatherData : OpenWeather.data) : option number :=
  match OpenWeather.main weatherData with
  | Some m => OpenWeather.main_temp m
  | None => None
  end.

(** [weatherData.wind?.speed] *)
Definition windSpeed (weatherData : OpenWeather.data) : option number :=
  match OpenWeather.wind weatherData with
  | Some w => OpenWeather.wind_speed w
  | None => None
  end.

(** The object literal [getWeather] returns. *)
Definition readingOf (weatherData : OpenWeather.data) : WeatherReading :=
  {| description := Js.stringOr (firstDescription weatherData) "Unknown";
     temp := Js.numberOrNull (mainTemp weatherData);
     wind := Js.numberOrNull (windSpeed weatherData) |}.

Definition weatherUrl (env : processEnv) (region : string) : string :=
  "https://api.openweathermap.org/data/2.5/weather?q=" ++ region ++
  "&appid=" ++ Js.holeString (OPENWEATHER_API_KEY env) ++ "&units=metric".

Definition getWeather (env : processEnv) (up : upstreams) (region : string)
  : IO WeatherReading :=
  (weatherData <-
     await (WeatherGet (weatherUrl env region))
           (axios_get up (weatherUrl env region)) ;;
   ret (readingOf weatherData))%io.

Definition noUrgentIssues : string := "No urgent issues.".
Definition heatwaveAlert : string :=
  "Heatwave alert! Irrigate in morning/evening and provide shade if possible.".
Definition heavyRainAlert : string :=
  "Heavy rain expected — ensure proper drainage.".
Definition strongWindAlert : string :=
  "Strong winds ahead — secure plants and structures.".

(** [getAlert]: the mutable [emergency] is threaded through the three [if]
    statements in source order. *)
Definition getAlert (weather : WeatherReading) : string :=
  let emergency := noUrgentIssues in
  let emergency :=
    if Js.gt (temp weather) 40 then heatwaveAlert else emergency in
  let emergency :=
    if Js.includes (description weather) "rain" && Js.lt (temp weather) 25
    then heavyRainAlert else emergency in
  let emergency :=
    if Js.gt (wind weather) 40 then strongWindAlert else emergency in
  emergency.

(** The alert rules as the specification words them: a table of rules in
    the order heat, rain, wind, of which the last one that matches decides,
    and the default when none matches.  [getAlert] is compared with it. *)
Definition alertRules : list ((WeatherReading -> bool) * string) :=
  [ (fun weather => Js.gt (temp weather) 40, heatwaveAlert);
    (fun weather =>
       Js.includes (description weather) "rain" && Js.lt (temp weather) 25,
     heavyRainAlert);
    (fun weather => Js.gt (wind weather) 40, strongWindAlert) ].

Definition lastMatchingRule (rules : list ((WeatherReading -> bool) * string))
  (default : string) (weather : WeatherReading) : string :=
  last (map snd (filter (fun rule => fst rule weather) rules)) default.

(** ** HTTP replies *)

#[warnings="-register-all"]
Inductive json :=
| JNull
| JBool (b : bool)
| JNumber (n : number)
| JString (s : string)
| JArray (items : list json)
| JObject (fields : list (string * json)).

Module Json.

(** A string that may be [null]. *)
Definition ofNullable (v : option string) : json :=
  match v with
  | Some s => JString s
  | None => JNull
  end.

Fixpoint lookup (key : string) (fields : list (string * json)) : option json :=
  match fields with
  | [] => None
  | (k, v) :: rest => if String.eqb k key then Some v else lookup key rest
  end.

(** The member [key] of an object. *)
Definition get (key : string) (j : json) : option json :=
  match j with
  | JObject fields => lookup key fields
  | _ => None
  end.

(** An object without its member [key]. *)
Definition remove (key : string) (j : json) : json :=
  match j with
  | JObject fields =>
      JObject (filter (fun kv => negb (String.eqb (fst kv) key)) fields)
  | _ => j
  end.

End Json.

Record response := mkResponse {
  status : Z;
  body : json
}.

(** [req.query], the three parameters the handlers destructure; a parameter
    the request does not carry is [undefined]. *)
Record query := mkQuery {
  crop : option string;
  region : option string;
  lang : option string
}.

(** The default of the destructuring [{ crop, region, lang = "en" }]: it
    applies when [lang] is [undefined]. *)
Definition langOrDefault (q : query) : string :=
  match lang q with
  | Some l => l
  | None => "en"
  end.

(** [aiResp.choices[0].message.content] *)
Definition firstContent (aiResp : OpenAI.chatCompletion) : result (option string) :=
  match OpenAI.choices aiResp with
  | c :: _ => Ok (OpenAI.message_content c)
  | [] => Throw (TypeError "Cannot read properties of undefined (reading 'message')")
  end.

(** What a middleware does: hand over to the next handler, or reply. *)
Inductive middleware :=
| Next
| Respond (r : response).

(** ** The authenticated server (part_000; the second entry point of
    part_001 has the same guard, handler and error mapping) *)

Module Server.

Definition bearerTokenRequired : response :=
  mkResponse 401 (JObject [("error", JString "Unauthorized");
                           ("message", JString "Bearer token required")]).

Definition tokenNotConfigured : response :=
  mkResponse 500 (JObject [("error", JString "Server configuration error");
                           ("message", JString "MCP_BEARER_TOKEN not configured")]).

Definition invalidBearerToken : response :=
  mkResponse 401 (JObject [("error", JString "Unauthorized");
                           ("message", JString "Invalid bearer token")]).

Definition authenticateBearer (env : processEnv) (authHeader : option string)
  : middleware :=
  match authHeader with
  | None => Respond bearerTokenRequired
  | Some authHeader =>
      if negb (Js.truthyString authHeader)
         || negb (Js.startsWith authHeader "Bearer ")
      then Respond bearerTokenRequired
      else
        let token := Js.substring 7 authHeader in
        match Js.truthy (MCP_BEARER_TOKEN env) with
        | None => Respond tokenNotConfigured
        | Some expectedToken =>
            if negb (String.eqb token expectedToken)
            then Respond invalidBearerToken
            else Next
        end
  end.

Definition missingParameters : response :=
  mkResponse 400
    (JObject [("error", JString "Missing parameters");
              ("message", JString "Both crop and region parameters are required")]).

(** [lang === "hi" ? "Hindi (Devanagari script)" : "English"] *)
Definition languageInstruction (lang : string) : string :=
  if String.eqb lang "hi" then "Hindi (Devanagari script)" else "English".

Section Handler.

Variable numberToString : number -> string.

Definition prompt (weather : WeatherReading) (crop region emergency lang : string)
  : string :=
  LF ++
  "      You are a farming assistant for Indian farmers." ++ LF ++
  "      Weather: " ++ description weather ++
  ", Temperature: " ++ Js.holeNumber numberToString (temp weather) ++
  "°C, Wind Speed: " ++ Js.holeNumber numberToString (wind weather) ++
  " km/h" ++ LF ++
  "      Crop: " ++ crop ++ LF ++
  "      Region: " ++ region ++ LF ++
  "      Emergency alert: " ++ emergency ++ LF ++
  "      " ++ LF ++
  "      Provide a concise, practical farming tip for this situation. Consider:" ++ LF ++
  "      - Current weather conditions" ++ LF ++
  "      - Crop-specific needs" ++ LF ++
  "      - Regional farming practices" ++ LF ++
  "      - Seasonal considerations" ++ LF ++
  "      " ++ LF ++
  "      Language: " ++ languageInstruction lang ++ LF ++
  "      Keep the response under 150 words and actionable." ++ LF ++
  "    ".

Definition forecast (weather : WeatherReading) : string :=
  description weather ++ ", " ++
  Js.holeNumber numberToString (temp weather) ++ "°C, Wind: " ++
  Js.holeNumber numberToString (wind weather) ++ " km/h".

#[warnings="-inexact-float"]
Definition completionParams (prompt : string) : OpenAI.params :=
  {| OpenAI.model := "gpt-4o-mini";
     OpenAI.messages := [OpenAI.mkMessage "user" prompt];
     OpenAI.temperature := Some 0.7%float;
     OpenAI.max_tokens := Some 200%Z |}.

(** The [catch] block of the handler. *)
Definition onError (region : string) (err : jsError) : response :=
  if statusIs (response_status err) 404 then
    mkResponse 404
      (JObject [("error", JString "Location not found");
                ("message", JString ("Unable to find weather data for region: " ++ region))])
  else if statusIs (response_status err) 401 then
    mkResponse 500
      (JObject [("error", JString "Weather API authentication failed");
                ("message", JString "Please check OPENWEATHER_API_KEY configuration")])
  else
    mkResponse 500
      (JObject [("error", JString "Internal server error");
                ("message",
                 JString (Js.stringOr (Some (message err))
                            "Something went wrong while processing your request"))]).

(** The handler of [GET /get-farmer-advice], after the guard. *)
Definition handler (env : processEnv) (up : upstreams) (h : host) (q : query)
  : IO response :=
  let lang := langOrDefault q in
  match Js.truthy (crop q), Js.truthy (region q) with
  | Some crop, Some region =>
      tryCatch
        (weather <- getWeather env up region ;;
         let emergency := getAlert weather in
         let prompt := prompt weather crop region emergency lang in
         aiResp <- await (ChatCompletionsCreate (completionParams prompt))
                         (chat_completions_create up (completionParams prompt)) ;;
         advice <- liftResult (firstContent aiResp) ;;
         ret (mkResponse 200
                (JObject [("success", JBool true);
                          ("data",
                           JObject [("crop", JString crop);
                                    ("region", JString region);
                                    ("forecast", JString (forecast weather));
                                    ("daily_tip", Json.ofNullable advice);
                                    ("emergency_alert", JString emergency);
                                    ("timestamp", JString (nowISOString h));
                                    ("language", JString lang)])])))%io
        (fun err => ret (onError region err))
  | _, _ => ret missingParameters
  end.

(** The route: the guard, then the handler. *)
Definition getFarmerAdvice (env : processEnv) (up : upstreams) (h : host)
  (authorization : option string) (q : query) : IO response :=
  match authenticateBearer env authorization with
  | Respond r => ret r
  | Next => handler env up h q
  end.

End Handler.

End Server.

(** ** The richer server (first entry point of part_001) *)

Module Rich.

Definition authenticationRequired : response :=
  mkResponse 401
    (JObject [("error", JString "Authentication required");
              ("message", JString "Bearer token must be provided in Authorization header")]).

Definition serverMisconfiguration : response :=
  mkResponse 500
    (JObject [("error", JString "Server misconfiguration");
              ("message", JString "Authentication not properly configured")]).

Definition invalidAuthentication : response :=
  mkResponse 401
    (JObject [("error", JString "Invalid authentication");
              ("message", JString "Bearer token is incorrect")]).

Definition authenticateBearer (env : processEnv) (authHeader : option string)
  : middleware :=
  match authHeader with
  | None => Respond authenticationRequired
  | Some authHeader =>
      if negb (Js.truthyString authHeader)
         || negb (Js.startsWith authHeader "Bearer ")
      then Respond authenticationRequired
      else
        let token := Js.substring 7 authHeader in
        match Js.truthy (MCP_BEARER_TOKEN env) with
        | None => Respond serverMisconfiguration
        | Some expectedToken =>
            if negb (String.eqb token expectedToken)
            then Respond invalidAuthentication
            else Next
        end
  end.

Definition missingRequiredParameters : response :=
  mkResponse 400
    (JObject [("success", JBool false);
              ("error", JString "Missing required parameters");
              ("message", JString "Both 'crop' and 'region' parameters are required");
              ("usage", JString "?crop=wheat&region=Punjab&lang=en")]).

(** [lang === "hi" ? "Hindi (use Devanagari script)" : "English"] *)
Definition languageInstruction (lang : string) : string :=
  if String.eqb lang "hi" then "Hindi (use Devanagari script)" else "English".

Section Handler.

Variable numberToString : number -> string.

(** [Number.prototype.toString(36)], the runtime's as well. *)
Variable numberToString36 : number -> string.

Definition prompt (weather : WeatherReading) (crop region emergency lang : string)
  : string :=
  "You are an expert agricultural advisor for Indian farmers." ++ LF ++
  LF ++
  "CURRENT CONDITIONS:" ++ LF ++
  "- Location: " ++ region ++ ", India" ++ LF ++
  "- Crop: " ++ crop ++ LF ++
  "- Weather: " ++ description weather ++ LF ++
  "- Temperature: " ++ Js.holeNumber numberToString (temp weather) ++ "°C" ++ LF ++
  "- Wind: " ++ Js.holeNumber numberToString (wind weather) ++ " km/h" ++ LF ++
  "- Emergency Status: " ++ emergency ++ LF ++
  LF ++
  "TASK: Provide specific, actionable farming advice for this situation." ++ LF ++
  LF ++
  "GUIDELINES:" ++ LF ++
  "- Consider the current weather impact on " ++ crop ++ LF ++
  "- Include immediate actions the farmer should take" ++ LF ++
  "- Mention any preventive measures needed" ++ LF ++
  "- Keep advice practical and location-specific" ++ LF ++
  "- Language: " ++ languageInstruction lang ++ LF ++
  "- Length: Maximum 100 words" ++ LF ++
  LF ++
  "Focus on what the farmer should do TODAY based on these conditions.".

Definition weather_forecast (weather : WeatherReading) : string :=
  description weather ++ ", " ++
  Js.holeNumber numberToString (temp weather) ++ "°C, Wind: " ++
  Js.holeNumber numberToString (wind weather) ++ " km/h".

#[warnings="-inexact-float"]
Definition completionParams (prompt : string) : OpenAI.params :=
  {| OpenAI.model := "gpt-4o-mini";
     OpenAI.messages := [OpenAI.mkMessage "user" prompt];
     OpenAI.temperature := Some 0.7%float;
     OpenAI.max_tokens := Some 150%Z |}.

(** [Math.random().toString(36).substring(7)] *)
Definition request_id (h : host) : string :=
  Js.substring 7 (numberToString36 (mathRandom h)).

(** The [catch] block of the handler.  A member whose value is [undefined]
    ([details] outside development) is left out of the JSON reply. *)
Definition onError (env : processEnv) (region : string) (error : jsError)
  : response :=
  if statusIs (response_status error) 404 then
    mkResponse 404
      (JObject [("success", JBool false);
                ("error", JString "Location not found");
                ("message",
                 JString ("Weather data unavailable for " ++ region ++
                          ". Try a major city name."));
                ("suggestions",
                 JArray [JString "Delhi"; JString "Mumbai"; JString "Chennai";
                         JString "Bangalore"; JString "Kolkata"])])
  else if stringIs (code error) "insufficient_quota" then
    mkResponse 503
      (JObject [("success", JBool false);
                ("error", JString "Service temporarily unavailable");
                ("message", JString "AI service quota exceeded. Please try again later.")])
  else
    mkResponse 500
      (JObject ([("success", JBool false);
                 ("error", JString "Internal server error");
                 ("message", JString "Unable to generate farming advice at this time")]
                ++ (if stringIs (NODE_ENV env) "development"
                    then [("details", JString (message error))]
                    else []))%list).

(** The handler of [GET /get-farmer-advice], after the guard. *)
Definition handler (env : processEnv) (up : upstreams) (h : host)
  (q : query) : IO response :=
  let lang := langOrDefault q in
  match Js.truthy (crop q), Js.truthy (region q) with
  | Some crop, Some region =>
      tryCatch
        (weather <- getWeather env up region ;;
         let emergency := getAlert weather in
         let prompt := prompt weather crop region emergency lang in
         aiResponse <- await (ChatCompletionsCreate (completionParams prompt))
                             (chat_completions_create up (completionParams prompt)) ;;
         advice <- liftResult (firstContent aiResponse) ;;
         ret (mkResponse 200
                (JObject [("success", JBool true);
                          ("data",
                           JObject [("crop", JString crop);
                                    ("region", JString region);
                                    ("weather_forecast", JString (weather_forecast weather));
                                    ("farming_advice", Json.ofNullable advice);
                                    ("emergency_alert", JString emergency);
                                    ("language", JString lang);
                                    ("timestamp", JString (nowISOString h));
                                    ("confidence", JString "high")]);
                          ("metadata",
                           JObject [("weather_source", JString "OpenWeatherMap");
                                    ("ai_model", JString "GPT-4o-mini");
                                    ("request_id", JString (request_id h))])])))%io
        (fun error => ret (onError env region error))
  | _, _ => ret missingRequiredParameters
  end.

Definition getFarmerAdvice (env : processEnv) (up : upstreams) (h : host)
  (authorization : option string) (q : query) : IO response :=
  match authenticateBearer env authorization with
  | Respond r => ret r
  | Next => handler env up h q
  end.

End Handler.

(** [GET /health]: public.  [process.env.OPENAI_API_KEY] and the reading of
    [process.uptime()] are arguments. *)
Definition health (env : processEnv) (OPENAI_API_KEY : option string)
  (h : host) (uptime : number) : response :=
  mkResponse 200
    (JObject [("status", JString "healthy");
              ("server", JString "KisanMitra");
              ("version", JString "1.0.0");
              ("timestamp", JString (nowISOString h));
              ("uptime", JNumber uptime);
              ("environment",
               JObject [("openai_configured", JBool (Js.toBoolean OPENAI_API_KEY));
                        ("weather_configured",
                         JBool (Js.toBoolean (OPENWEATHER_API_KEY env)));
                        ("auth_configured",
                         JBool (Js.toBoolean (MCP_BEARER_TOKEN env)))])]).

(** [GET /test-auth]: the guard, then a fixed success reply. *)
Definition testAuth (env : processEnv) (h : host) (authorization : option string)
  : response :=
  match authenticateBearer env authorization with
  | Respond r => r
  | Next =>
      mkResponse 200
        (JObject [("success", JBool true);
                  ("message", JString "Authentication working correctly");
                  ("timestamp", JString (nowISOString h));
                  ("server", JString "KisanMitra MCP")])
  end.

End Rich.

(** ** The minimal server (part_002): no guard, no envelope *)

Module Minimal.

(** [lang === "hi" ? "Hindi" : "English"] *)
Definition languageInstruction (lang : string) : string :=
  if String.eqb lang "hi" then "Hindi" else "English".

Section Handler.

Variable numberToString : number -> string.

Definition prompt (weather : WeatherReading) (crop emergency lang : string)
  : string :=
  LF ++
  "      You are a farming assistant." ++ LF ++
  "      Weather: " ++ description weather ++
  ", Temperature: " ++ Js.holeNumber numberToString (temp weather) ++
  "°C, Wind Speed: " ++ Js.holeNumber numberToString (wind weather) ++
  " km/h" ++ LF ++
  "      Crop: " ++ crop ++ LF ++
  "      Emergency alert: " ++ emergency ++ LF ++
  "      Give a short, practical farming tip for this situation." ++ LF ++
  "      Language: " ++ languageInstruction lang ++ LF ++
  "    ".

Definition completionParams (prompt : string) : OpenAI.params :=
  {| OpenAI.model := "gpt-4o-mini";
     OpenAI.messages := [OpenAI.mkMessage "user" prompt];
     OpenAI.temperature := None;
     OpenAI.max_tokens := None |}.

Definition handler (env : processEnv) (up : upstreams) (q : query)
  : IO response :=
  let lang := langOrDefault q in
  match Js.truthy (crop q), Js.truthy (region q) with
  | Some crop, Some region =>
      tryCatch
        (weather <- getWeather env up region ;;
         let emergency := getAlert weather in
         let prompt := prompt weather crop emergency lang in
         aiResp <- await (ChatCompletionsCreate (completionParams prompt))
                         (chat_completions_create up (completionParams prompt)) ;;
         advice <- liftResult (firstContent aiResp) ;;
         ret (mkResponse 200
                (JObject [("crop", JString crop);
                          ("region", JString region);
                          ("forecast",
                           JString (description weather ++ ", " ++
                                    Js.holeNumber numberToString (temp weather) ++ "°C"));
                          ("daily_tip", Json.ofNullable advice);
                          ("emergency_alert", JString emergency)])))%io
        (fun err => ret (mkResponse 500 (JObject [("error", JString (message err))])))
  | _, _ =>
      ret (mkResponse 400 (JObject [("error", JString "Missing crop or region parameter")]))
  end.

End Handler.

End Minimal.

(** The HTTP status a middleware answers with, if it answers. *)
Definition guardStatus (m : middleware) : option Z :=
  match m with
  | Next => None
  | Respond r => Some (status r)
  end.

(** ** The Advisory of a reply

    The success replies of the authenticated and the richer server carry the
    Advisory as the member [data] of the body. *)

Definition advisory (r : response) : option json := Json.get "data" (body r).

Definition withoutTimestamp (j : json) : json := Json.remove "timestamp" j.

(** The shapes the upstream calls of one request can take: none; the
    weather request for the region asked for; or that request followed by
    one chat completion with a single user message for "gpt-4o-mini". *)
Definition sequentialCalls (env : processEnv) (q : query)
  (calls : list upstreamCall) : Prop :=
  calls = []
  \/ exists r,
       Js.truthy (region q) = Some r
       /\ (calls = [WeatherGet (weatherUrl env r)]
           \/ exists p prompt,
                calls = [WeatherGet (weatherUrl env r); ChatCompletionsCreate p]
                /\ OpenAI.model p = "gpt-4o-mini"
                /\ OpenAI.messages p = [OpenAI.mkMessage "user" prompt]).

(** ** Test doubles

    Providers, configuration and runtime values for concrete runs. *)

Module Fixture.

(** [Number.prototype.toString] as a table over the numbers the fixtures
    use: [18], [5], and [0] for the rest. *)
Definition numberToString (n : number) : string :=
  if PrimFloat.eqb n 18 then "18"
  else if PrimFloat.eqb n 5 then "5"
  else "0".

(** [Number.prototype.toString(36)], likewise: [0.5] is ["0.i"]. *)
Definition numberToString36 (n : number) : string :=
  if PrimFloat.eqb n 0.5 then "0.i" else "0".

Definition env : processEnv :=
  mkEnv (Some "owm-key") (Some "s3cret") None.

Definition clock : host := mkHost "2024-08-10T10:30:00.000Z" 0.5%float.

Definition clearSky : OpenWeather.data :=
  OpenWeather.mkData
    (Some [OpenWeather.mkEntry (Some "clear sky")])
    (Some (OpenWeather.mkMain (Some 18%float)))
    (Some (OpenWeather.mkWind (Some 5%float))).

Definition completion : OpenAI.chatCompletion :=
  OpenAI.mkCompletion [OpenAI.mkChoice (Some "Irrigate early in the day.")].

(** Both providers answer. *)
Definition healthy : upstreams :=
  mkUpstreams (fun _ => Ok clearSky) (fun _ => Ok completion).

(** The weather provider answers every request with the given HTTP error. *)
Definition weatherFails (httpStatus : Z) : upstreams :=
  mkUpstreams
    (fun _ => Throw (FromAxios (mkAxiosError (Some httpStatus)
                                  (Some "ERR_BAD_REQUEST")
                                  "Request failed")))
    (fun _ => Ok completion).

Definition quotaFault : APIError :=
  mkAPIError (Some 429%Z) (Some "insufficient_quota")
             "You exceeded your current quota".

Definition serverFault : APIError :=
  mkAPIError (Some 500%Z) (Some "server_error")
             "The server had an error while processing your request".

(** The generation provider answers every request with the given fault. *)
Definition generationFails (fault : APIError) : upstreams :=
  mkUpstreams (fun _ => Ok clearSky) (fun _ => Throw (FromOpenAI fault)).

Definition wheatInPunjab : query :=
  mkQuery (Some "wheat") (Some "Punjab") (Some "hi").

End Fixture.

(** * Properties *)

(** ** Strings *)

Lemma prefix_app (x rest : string) : String.prefix x (x ++ rest) = true.
Proof.
  induction x as [|c x IH]; simpl.
  - now destruct rest.
  - destruct (ascii_dec c c) as [_|ne]; [exact IH | now elim ne].
Qed.

Lemma includes_here (x rest : string) : Js.includes (x ++ rest) x = true.
Proof.
  destruct x as [|c x]; simpl.
  - now destruct rest.
  - destruct (ascii_dec c c) as [_|ne]; [|now elim ne].
    now rewrite prefix_app.
Qed.

Lemma includes_refl (s : string) : Js.includes s s = true.
Proof.
  assert (String.prefix s s = true) as P.
  { induction s as [|c s IH]; simpl; [reflexivity|].
    destruct (ascii_dec c c) as [_|ne]; [exact IH | now elim ne]. }
  destruct s; simpl in *; [reflexivity | now rewrite P].
Qed.

Lemma includes_skip (before s x : string) :
  Js.includes s x = true -> Js.includes (before ++ s) x = true.
Proof.
  intros H. induction before as [|c before IH]; simpl.
  - exact H.
  - rewrite IH. apply orb_true_r.
Qed.

Lemma startsWith_split (s p : string) :
  Js.startsWith s p = true -> s = p ++ Js.substring (String.length p) s.
Proof.
  unfold Js.startsWith. revert s.
  induction p as [|c p IH]; intros s H.
  - now destruct s.
  - destruct s as [|d s]; [discriminate|].
    cbn [String.prefix] in H.
    destruct (ascii_dec c d) as [e|]; [subst d|discriminate].
    cbn [String.length Js.substring String.append]. f_equal. now apply IH.
Qed.

Lemma truthyString_nonempty (s : string) :
  Js.truthyString s = true <-> s <> "".
Proof.
  unfold Js.truthyString. rewrite negb_true_iff. apply String.eqb_neq.
Qed.

Lemma truthy_Some (v : option string) (s : string) :
  Js.truthy v = Some s <-> v = Some s /\ s <> "".
Proof.
  unfold Js.truthy. destruct v as [t|].
  - destruct (Js.truthyString t) eqn:E.
    + apply truthyString_nonempty in E. split.
      * intros [= ->]. now split.
      * now intros [[= ->] _].
    + split; [discriminate|]. intros [[= ->] ne].
      apply truthyString_nonempty in ne. congruence.
  - split; [discriminate | now intros [? _]].
Qed.

(** ** utils.js: the alert rules *)

(** C1. [getAlert] evaluates heat, then rain, then wind, each matching rule
    overwriting the result so far: the alert is the message of the last rule
    of the table [alertRules] that matches, and the default
    "No urgent issues." when none does; equivalently wind decides before
    rain and rain before heat.  On
    [{temp:45, wind:50, description:"heavy rain"}] it is the strong-wind
    message, on [{temp:45, wind:0, description:"clear"}] the heatwave
    message, on [{temp:20, wind:0, description:"light rain"}] the rain
    message. *)
Theorem getAlert_last_match_wins :
  (forall weather : WeatherReading,
     getAlert weather = lastMatchingRule alertRules noUrgentIssues weather)
  /\ (forall weather : WeatherReading,
     getAlert weather =
       if Js.gt (wind weather) 40 then strongWindAlert
       else if Js.includes (description weather) "rain" && Js.lt (temp weather) 25
            then heavyRainAlert
       else if Js.gt (temp weather) 40 then heatwaveAlert
       else noUrgentIssues)
  /\ getAlert (mkReading "heavy rain" (Some 45%float) (Some 50%float))
       = "Strong winds ahead — secure plants and structures."
  /\ getAlert (mkReading "clear" (Some 45%float) (Some 0%float))
       = "Heatwave alert! Irrigate in morning/evening and provide shade if possible."
  /\ getAlert (mkReading "light rain" (Some 20%float) (Some 0%float))
       = "Heavy rain expected — ensure proper drainage."
  /\ getAlert (mkReading "clear" (Some 20%float) (Some 50%float))
       = "Strong winds ahead — secure plants and structures."
  /\ getAlert (mkReading "clear" None None) = "No urgent issues.".
Proof.
  split; [|split; [|repeat split; reflexivity]].
  - intros weather.
    unfold getAlert, lastMatchingRule, alertRules. cbn [filter fst].
    destruct (Js.gt (temp weather) 40);
      destruct (Js.includes (description weather) "rain" && Js.lt (temp weather) 25);
      destruct (Js.gt (wind weather) 40); reflexivity.
  - intros weather. unfold getAlert.
    destruct (Js.gt (wind weather) 40); [reflexivity|].
    destruct (Js.includes (description weather) "rain" && Js.lt (temp weather) 25);
      [reflexivity|].
    destruct (Js.gt (temp weather) 40); reflexivity.
Qed.

(** A [null] operand never satisfies [> k] for a positive threshold: the
    heatwave rule needs a temperature and the wind rule a wind speed. *)
Lemma null_never_exceeds_40 : Js.gt None 40 = false.
Proof. reflexivity. Qed.

(** [getAlert] is a total function: no input makes it throw. *)
Lemma getAlert_total (weather : WeatherReading) :
  In (getAlert weather)
     [noUrgentIssues; heatwaveAlert; heavyRainAlert; strongWindAlert].
Proof.
  unfold getAlert.
  destruct (Js.gt (wind weather) 40); [simpl; tauto|].
  destruct (Js.includes (description weather) "rain" && Js.lt (temp weather) 25);
    [simpl; tauto|].
  destruct (Js.gt (temp weather) 40); simpl; tauto.
Qed.

(** C2 (the code at the failing input).  [null < 25] converts [null] to [0]
    and holds, so a reading with a rain description and no temperature
    triggers the rain rule: the [temp < 25] conjunct is not "not-triggered"
    for a [null] temperature.  The heatwave and wind comparisons do stay
    false on [null]. *)
Theorem getAlert_null_temp_triggers_rain :
  Js.lt None 25 = true
  /\ getAlert (mkReading "light rain" None None)
     = "Heavy rain expected — ensure proper drainage."
  /\ getAlert
       (readingOf (OpenWeather.mkData
                     (Some [OpenWeather.mkEntry (Some "light rain")])
                     (Some (OpenWeather.mkMain None))
                     (Some (OpenWeather.mkWind None))))
     = "Heavy rain expected — ensure proper drainage."
  /\ Js.gt None 40 = false.
Proof. repeat split; reflexivity. Qed.

(** ** utils.js: normalising the provider's reply *)

Lemma numberOrNull_None (v : option number) :
  Js.numberOrNull v = None <->
  v = None \/ exists n, v = Some n /\ Js.truthyNumber n = false.
Proof.
  unfold Js.numberOrNull. destruct v as [n|].
  - destruct (Js.truthyNumber n) eqn:E; split.
    + discriminate.
    + intros [|[m [[= <-] F]]]; congruence.
    + intros _. right. now exists n.
    + reflexivity.
  - split; [now left | reflexivity].
Qed.

(** C10. [getWeather] delivers the reading [readingOf d] for the provider's
    reply [d].  Whatever falsy value the provider sends as [main.temp] or
    [wind.speed], the reading holds [null] for it, and a falsy description
    becomes ["Unknown"]; the readings [0] and [-0] are falsy, so a reply
    that reports a temperature (or wind speed) of exactly 0 yields the same
    reading as a reply without that field. *)
Theorem getWeather_falsy_becomes_null :
  (forall env up region log d,
     axios_get up (weatherUrl env region) = Ok d ->
     fst (getWeather env up region log) = Ok (readingOf d))
  /\ (forall d : OpenWeather.data,
     temp (readingOf d) = None <->
     mainTemp d = None \/ exists n, mainTemp d = Some n /\ Js.truthyNumber n = false)
  /\ (forall d : OpenWeather.data,
     wind (readingOf d) = None <->
     windSpeed d = None \/ exists n, windSpeed d = Some n /\ Js.truthyNumber n = false)
  /\ (forall d : OpenWeather.data,
     firstDescription d = None \/ firstDescription d = Some "" ->
     description (readingOf d) = "Unknown")
  /\ Js.truthyNumber 0%float = false
  /\ Js.truthyNumber (-0)%float = false
  /\ Js.truthyNumber PrimFloat.nan = false
  /\ (forall w ws,
     readingOf (OpenWeather.mkData w (Some (OpenWeather.mkMain (Some 0%float))) ws)
     = readingOf (OpenWeather.mkData w (Some (OpenWeather.mkMain None)) ws))
  /\ (forall w m,
     readingOf (OpenWeather.mkData w m (Some (OpenWeather.mkWind (Some 0%float))))
     = readingOf (OpenWeather.mkData w m (Some (OpenWeather.mkWind None)))).
Proof.
  split; [|split; [|split; [|split]]].
  - intros env up region log d E.
    unfold getWeather, bind, await, ret. now rewrite E.
  - intros d. apply numberOrNull_None.
  - intros d. apply numberOrNull_None.
  - intros d [E|E]; unfold readingOf; rewrite E; reflexivity.
  - repeat split; reflexivity.
Qed.

(** The reading is what [getWeather] delivers for the provider's reply, after
    exactly one call to the weather provider. *)
Lemma getWeather_ok env up region d log :
  axios_get up (weatherUrl env region) = Ok d ->
  getWeather env up region log
  = (Ok (readingOf d), (log ++ [WeatherGet (weatherUrl env region)])%list).
Proof. intros E. unfold getWeather, bind, await, ret. now rewrite E. Qed.

Lemma getWeather_throw env up region err log :
  axios_get up (weatherUrl env region) = Throw err ->
  getWeather env up region log
  = (Throw err, (log ++ [WeatherGet (weatherUrl env region)])%list).
Proof. intros E. unfold getWeather, bind, await, ret. now rewrite E. Qed.

(** ** The bearer guard *)

(** [authenticateBearer] lets a request through exactly when a non-empty
    secret is configured and the header is ["Bearer "] followed by it. *)
Lemma authenticateBearer_next env authHeader :
  Server.authenticateBearer env authHeader = Next <->
  exists secret,
    MCP_BEARER_TOKEN env = Some secret /\ secret <> "" /\
    authHeader = Some ("Bearer " ++ secret).
Proof.
  unfold Server.authenticateBearer. split.
  - destruct authHeader as [h|]; [|discriminate].
    destruct (Js.truthyString h); [|discriminate].
    destruct (Js.startsWith h "Bearer ") eqn:P; [|discriminate].
    cbn [negb orb].
    destruct (Js.truthy (MCP_BEARER_TOKEN env)) as [s|] eqn:T; [|discriminate].
    destruct (String.eqb (Js.substring 7 h) s) eqn:E; [|discriminate].
    intros _. apply truthy_Some in T. destruct T as [T ne].
    apply String.eqb_eq in E. apply startsWith_split in P.
    exists s. repeat split; trivial.
    rewrite P at 1. cbn [String.length]. now rewrite E.
  - intros (s & T & ne & ->).
    assert (Js.truthy (MCP_BEARER_TOKEN env) = Some s) as ->
      by now apply truthy_Some.
    change (Js.truthyString ("Bearer " ++ s)) with true.
    unfold Js.startsWith. rewrite prefix_app.
    change (Js.substring 7 ("Bearer " ++ s)) with s.
    now rewrite String.eqb_refl.
Qed.

(** The guard of the richer server decides as the one of the authenticated
    server does; the two differ in the wording of their replies. *)
Lemma rich_guard_decides_alike env authHeader :
  Rich.authenticateBearer env authHeader = Next <->
  Server.authenticateBearer env authHeader = Next.
Proof.
  unfold Rich.authenticateBearer, Server.authenticateBearer.
  destruct authHeader as [h|]; [|split; discriminate].
  destruct (negb (Js.truthyString h) || negb (Js.startsWith h "Bearer "));
    [split; discriminate|].
  destruct (Js.truthy (MCP_BEARER_TOKEN env)) as [s|]; [|split; discriminate].
  destruct (negb (String.eqb (Js.substring 7 h) s)); [split; discriminate|].
  split; reflexivity.
Qed.

(** C3. The guard tests the header first (absent, or not starting with
    ["Bearer "]: 401 "Bearer token required", whatever the configuration),
    then the configuration (no secret, or an empty one: 500, whatever the
    token), then the token (different from the secret: 401 "Invalid bearer
    token"); it lets the request through if and only if the header is
    ["Bearer "] followed by exactly the configured secret.  The comparison
    is case-sensitive and trims nothing. *)
Theorem authenticateBearer_checks_in_order :
  forall (env : processEnv) (authHeader : option string),
    (authHeader = None \/
     (exists h, authHeader = Some h /\ Js.startsWith h "Bearer " = false) ->
     Server.authenticateBearer env authHeader = Respond Server.bearerTokenRequired)
    /\ (forall token,
          authHeader = Some ("Bearer " ++ token) ->
          MCP_BEARER_TOKEN env = None \/ MCP_BEARER_TOKEN env = Some "" ->
          Server.authenticateBearer env authHeader = Respond Server.tokenNotConfigured)
    /\ (forall token secret,
          authHeader = Some ("Bearer " ++ token) ->
          MCP_BEARER_TOKEN env = Some secret -> secret <> "" ->
          token <> secret ->
          Server.authenticateBearer env authHeader = Respond Server.invalidBearerToken)
    /\ (Server.authenticateBearer env authHeader = Next <->
        exists secret,
          MCP_BEARER_TOKEN env = Some secret /\ secret <> "" /\
          authHeader = Some ("Bearer " ++ secret))
    /\ status Server.bearerTokenRequired = 401%Z
    /\ status Server.tokenNotConfigured = 500%Z
    /\ status Server.invalidBearerToken = 401%Z
    /\ Server.authenticateBearer Fixture.env (Some "Bearer s3cret") = Next
    /\ Server.authenticateBearer Fixture.env (Some "Bearer S3cret")
       = Respond Server.invalidBearerToken
    /\ Server.authenticateBearer Fixture.env (Some "Bearer s3cret ")
       = Respond Server.invalidBearerToken
    /\ Server.authenticateBearer Fixture.env (Some "Bearer  s3cret")
       = Respond Server.invalidBearerToken
    /\ Server.authenticateBearer Fixture.env (Some "bearer s3cret")
       = Respond Server.bearerTokenRequired.
Proof.
  intros env authHeader.
  split; [|split; [|split; [|split]]].
  - intros [->|(h & -> & P)]; [reflexivity|].
    unfold Server.authenticateBearer. rewrite P.
    now rewrite orb_true_r.
  - intros token -> E. unfold Server.authenticateBearer.
    change (Js.truthyString ("Bearer " ++ token)) with true.
    unfold Js.startsWith. rewrite prefix_app. cbn [negb orb].
    now destruct E as [-> | ->].
  - intros token secret -> E ne diff. unfold Server.authenticateBearer.
    change (Js.truthyString ("Bearer " ++ token)) with true.
    unfold Js.startsWith. rewrite prefix_app. cbn [negb orb].
    assert (Js.truthy (MCP_BEARER_TOKEN env) = Some secret) as ->
      by now apply truthy_Some.
    change (Js.substring 7 ("Bearer " ++ token)) with token.
    apply String.eqb_neq in diff. now rewrite diff.
  - apply authenticateBearer_next.
  - repeat split; reflexivity.
Qed.

(** ** The request handler *)

Lemma truthy_None (v : option string) :
  Js.truthy v = None <-> v = None \/ v = Some "".
Proof.
  unfold Js.truthy. destruct v as [s|].
  - destruct (Js.truthyString s) eqn:E.
    + apply truthyString_nonempty in E. split; [discriminate|].
      intros [|[= ->]]; [discriminate | now elim E].
    + split; [|reflexivity]. intros _. right. f_equal.
      unfold Js.truthyString in E. apply negb_false_iff in E.
      now apply String.eqb_eq.
  - split; [now left | reflexivity].
Qed.

(** C4. A request whose crop or region is missing or empty gets the 400
    reply and the log of upstream calls is left as it was: neither the
    weather provider nor the generation provider is called. *)
Theorem handler_rejects_before_upstream :
  forall numberToString env up h q log,
    crop q = None \/ crop q = Some "" \/ region q = None \/ region q = Some "" ->
    Server.handler numberToString env up h q log = (Ok Server.missingParameters, log)
    /\ status Server.missingParameters = 400%Z.
Proof.
  intros numberToString env up h q log H.
  split; [|reflexivity].
  unfold Server.handler.
  destruct H as [H|[H|[H|H]]].
  - rewrite (proj2 (truthy_None (crop q))) by now left. reflexivity.
  - rewrite (proj2 (truthy_None (crop q))) by now right. reflexivity.
  - rewrite (proj2 (truthy_None (region q))) by now left.
    now destruct (Js.truthy (crop q)).
  - rewrite (proj2 (truthy_None (region q))) by now right.
    now destruct (Js.truthy (crop q)).
Qed.

Lemma handler_rejects_before_upstream_witness :
  (crop (mkQuery (Some "wheat") (Some "") None) = None \/
   crop (mkQuery (Some "wheat") (Some "") None) = Some "" \/
   region (mkQuery (Some "wheat") (Some "") None) = None \/
   region (mkQuery (Some "wheat") (Some "") None) = Some "")
  /\ Server.handler Fixture.numberToString Fixture.env Fixture.healthy
       Fixture.clock (mkQuery (Some "wheat") (Some "") None) []
     = (Ok Server.missingParameters, [])
  /\ status Server.missingParameters = 400%Z.
Proof.
  split.
  - right; right; right; reflexivity.
  - apply (handler_rejects_before_upstream Fixture.numberToString Fixture.env
             Fixture.healthy Fixture.clock (mkQuery (Some "wheat") (Some "") None) []).
    right; right; right; reflexivity.
Defined.

(** X9. The richer and the minimal server validate the same way: when crop
    or region is missing or empty they answer 400 and call no provider. *)
Lemma other_handlers_reject_before_upstream numberToString numberToString36 env up h q log :
  Js.truthy (crop q) = None \/ Js.truthy (region q) = None ->
  Rich.handler numberToString numberToString36 env up h q log
  = (Ok Rich.missingRequiredParameters, log)
  /\ fst (Minimal.handler numberToString env up q log)
     = Ok (mkResponse 400 (JObject [("error", JString "Missing crop or region parameter")]))
  /\ snd (Minimal.handler numberToString env up q log) = log.
Proof.
  unfold Rich.handler, Minimal.handler.
  intros [-> | ->]; [|destruct (Js.truthy (crop q))]; repeat split.
Qed.

(** The run of the authenticated handler once the weather request has
    failed: the [catch] block answers and the generation provider is never
    reached. *)
Lemma handler_weather_failure numberToString env up h q c r err log :
  Js.truthy (crop q) = Some c ->
  Js.truthy (region q) = Some r ->
  axios_get up (weatherUrl env r) = Throw err ->
  Server.handler numberToString env up h q log
  = (Ok (Server.onError r err), (log ++ [WeatherGet (weatherUrl env r)])%list).
Proof.
  intros Hc Hr E. unfold Server.handler. rewrite Hc, Hr.
  unfold tryCatch, bind. now rewrite (getWeather_throw _ _ _ _ _ E).
Qed.

(** C5. When the weather request fails with the provider's 404 the handler
    replies 404 and its message ends with the region asked for; when it
    fails with the provider's 401 the handler replies 500 and names the
    weather API key configuration. *)
Theorem handler_maps_weather_faults :
  forall numberToString env up h q c r err log,
    Js.truthy (crop q) = Some c ->
    Js.truthy (region q) = Some r ->
    axios_get up (weatherUrl env r) = Throw err ->
    (response_status err = Some 404%Z ->
     Server.handler numberToString env up h q log
     = (Ok (mkResponse 404
              (JObject [("error", JString "Location not found");
                        ("message",
                         JString ("Unable to find weather data for region: " ++ r))])),
        (log ++ [WeatherGet (weatherUrl env r)])%list)
     /\ Js.includes ("Unable to find weather data for region: " ++ r) r = true)
    /\ (response_status err = Some 401%Z ->
     Server.handler numberToString env up h q log
     = (Ok (mkResponse 500
              (JObject [("error", JString "Weather API authentication failed");
                        ("message",
                         JString "Please check OPENWEATHER_API_KEY configuration")])),
        (log ++ [WeatherGet (weatherUrl env r)])%list)).
Proof.
  intros numberToString env up h q c r err log Hc Hr E.
  rewrite (handler_weather_failure numberToString env up h q c r err log Hc Hr E).
  unfold Server.onError. split; intros ->; cbn [statusIs Z.eqb Pos.eqb].
  - split; [reflexivity|]. apply includes_skip, includes_refl.
  - reflexivity.
Qed.

Lemma handler_maps_weather_faults_witness :
  Js.truthy (crop Fixture.wheatInPunjab) = Some "wheat"
  /\ Js.truthy (region Fixture.wheatInPunjab) = Some "Punjab"
  /\ Server.handler Fixture.numberToString Fixture.env (Fixture.weatherFails 404)
       Fixture.clock Fixture.wheatInPunjab []
     = (Ok (mkResponse 404
              (JObject [("error", JString "Location not found");
                        ("message",
                         JString "Unable to find weather data for region: Punjab")])),
        [WeatherGet
           "https://api.openweathermap.org/data/2.5/weather?q=Punjab&appid=owm-key&units=metric"])
  /\ Server.handler Fixture.numberToString Fixture.env (Fixture.weatherFails 401)
       Fixture.clock Fixture.wheatInPunjab []
     = (Ok (mkResponse 500
              (JObject [("error", JString "Weather API authentication failed");
                        ("message",
                         JString "Please check OPENWEATHER_API_KEY configuration")])),
        [WeatherGet
           "https://api.openweathermap.org/data/2.5/weather?q=Punjab&appid=owm-key&units=metric"]).
Proof.
  split; [reflexivity|]. split; [reflexivity|]. split.
  - apply (handler_maps_weather_faults Fixture.numberToString Fixture.env
             (Fixture.weatherFails 404) Fixture.clock Fixture.wheatInPunjab
             "wheat" "Punjab"
             (FromAxios (mkAxiosError (Some 404%Z) (Some "ERR_BAD_REQUEST")
                           "Request failed"))
             []); reflexivity.
  - apply (handler_maps_weather_faults Fixture.numberToString Fixture.env
             (Fixture.weatherFails 401) Fixture.clock Fixture.wheatInPunjab
             "wheat" "Punjab"
             (FromAxios (mkAxiosError (Some 401%Z) (Some "ERR_BAD_REQUEST")
                           "Request failed"))
             []); reflexivity.
Defined.

(** The run of the richer handler once the generation request has failed:
    both providers were called, in that order, and the [catch] block
    answers. *)
Lemma rich_handler_generation_failure
  numberToString numberToString36 env up h q c r d err log :
  Js.truthy (crop q) = Some c ->
  Js.truthy (region q) = Some r ->
  axios_get up (weatherUrl env r) = Ok d ->
  chat_completions_create up
    (Rich.completionParams
       (Rich.prompt numberToString (readingOf d) c r (getAlert (readingOf d))
          (langOrDefault q)))
  = Throw err ->
  Rich.handler numberToString numberToString36 env up h q log
  = (Ok (Rich.onError env r err),
     (log ++ [WeatherGet (weatherUrl env r)]
          ++ [ChatCompletionsCreate
                (Rich.completionParams
                   (Rich.prompt numberToString (readingOf d) c r
                      (getAlert (readingOf d)) (langOrDefault q)))])%list).
Proof.
  intros Hc Hr W G. unfold Rich.handler. rewrite Hc, Hr.
  unfold tryCatch, bind at 1. rewrite (getWeather_ok _ _ _ _ _ W).
  unfold bind, await. rewrite G. cbn [ret]. now rewrite <- app_assoc.
Qed.

(** C6. In the richer server, when the generation request fails with the
    provider's fault whose code is [insufficient_quota], the reply is 503
    "Service temporarily unavailable"; a fault of the generation provider
    with any other code gets the generic 500, so the two can be told
    apart. *)
Theorem rich_handler_quota_is_503 :
  forall numberToString numberToString36 env up h q c r d fault log,
    Js.truthy (crop q) = Some c ->
    Js.truthy (region q) = Some r ->
    axios_get up (weatherUrl env r) = Ok d ->
    chat_completions_create up
      (Rich.completionParams
         (Rich.prompt numberToString (readingOf d) c r (getAlert (readingOf d))
            (langOrDefault q)))
    = Throw (FromOpenAI fault) ->
    (api_code fault = Some "insufficient_quota" ->
     fst (Rich.handler numberToString numberToString36 env up h q log)
     = Ok (mkResponse 503
             (JObject [("success", JBool false);
                       ("error", JString "Service temporarily unavailable");
                       ("message",
                        JString "AI service quota exceeded. Please try again later.")])))
    /\ (api_code fault <> Some "insufficient_quota" ->
        exists reply,
          fst (Rich.handler numberToString numberToString36 env up h q log) = Ok reply
          /\ status reply = 500%Z).
Proof.
  intros numberToString numberToString36 env up h q c r d fault log Hc Hr W G.
  rewrite (rich_handler_generation_failure numberToString numberToString36
             env up h q c r d (FromOpenAI fault) log Hc Hr W G).
  cbn [fst]. unfold Rich.onError. cbn [response_status statusIs code].
  split.
  - intros ->. reflexivity.
  - intros ne.
    assert (stringIs (api_code fault) "insufficient_quota" = false) as ->.
    { destruct (api_code fault) as [s|]; [|reflexivity].
      cbn [stringIs]. apply String.eqb_neq. congruence. }
    eexists. split; reflexivity.
Qed.

Lemma rich_handler_quota_is_503_witness :
  Js.truthy (crop Fixture.wheatInPunjab) = Some "wheat"
  /\ Js.truthy (region Fixture.wheatInPunjab) = Some "Punjab"
  /\ api_code Fixture.quotaFault = Some "insufficient_quota"
  /\ fst (Rich.handler Fixture.numberToString Fixture.numberToString36 Fixture.env
            (Fixture.generationFails Fixture.quotaFault) Fixture.clock
            Fixture.wheatInPunjab [])
     = Ok (mkResponse 503
             (JObject [("success", JBool false);
                       ("error", JString "Service temporarily unavailable");
                       ("message",
                        JString "AI service quota exceeded. Please try again later.")]))
  /\ exists reply,
       fst (Rich.handler Fixture.numberToString Fixture.numberToString36 Fixture.env
              (Fixture.generationFails Fixture.serverFault) Fixture.clock
              Fixture.wheatInPunjab []) = Ok reply
       /\ status reply = 500%Z.
Proof.
  split; [reflexivity|]. split; [reflexivity|]. split; [reflexivity|]. split.
  - apply (rich_handler_quota_is_503 Fixture.numberToString Fixture.numberToString36
             Fixture.env (Fixture.generationFails Fixture.quotaFault) Fixture.clock
             Fixture.wheatInPunjab "wheat" "Punjab" Fixture.clearSky
             Fixture.quotaFault []); reflexivity.
  - apply (rich_handler_quota_is_503 Fixture.numberToString Fixture.numberToString36
             Fixture.env (Fixture.generationFails Fixture.serverFault) Fixture.clock
             Fixture.wheatInPunjab "wheat" "Punjab" Fixture.clearSky
             Fixture.serverFault []); try reflexivity.
    discriminate.
Defined.

(** ** The prompt *)

Ltac find_in_template :=
  repeat first [ apply includes_here | apply includes_skip ].

(** C7 (as stated, refuted on the minimal server).  For the request
    [crop=wheat, region=Punjab, lang=hi] the minimal server sends a prompt
    that contains neither the region nor a mention of the Devanagari
    script. *)
Lemma minimal_prompt_omits_region :
  let p :=
    Minimal.prompt Fixture.numberToString (readingOf Fixture.clearSky)
      "wheat" (getAlert (readingOf Fixture.clearSky)) "hi" in
  snd (Minimal.handler Fixture.numberToString Fixture.env Fixture.healthy
         Fixture.wheatInPunjab [])
  = [WeatherGet (weatherUrl Fixture.env "Punjab");
     ChatCompletionsCreate (Minimal.completionParams p)]
  /\ Js.includes p "Punjab" = false
  /\ Js.includes p "Devanagari" = false
  /\ Js.includes p "Hindi" = true.
Proof. repeat split; vm_compute; reflexivity. Qed.

(** C7 (amended).  The prompt of the authenticated server and the prompt of
    the richer server embed the weather description, the temperature and
    the wind speed (a [null] one as the text "null"), the crop, the region,
    the alert and a language instruction, which names Hindi and the
    Devanagari script for ["hi"] and is "English" for every other value.
    The prompt of the minimal server embeds the same items except the
    region, and its instruction for ["hi"] is the word "Hindi". *)
Theorem prompt_embeds_inputs :
  forall numberToString weather crop region emergency lang,
    (let p := Server.prompt numberToString weather crop region emergency lang in
     Js.includes p (description weather) = true
     /\ Js.includes p (Js.holeNumber numberToString (temp weather)) = true
     /\ Js.includes p (Js.holeNumber numberToString (wind weather)) = true
     /\ Js.includes p crop = true
     /\ Js.includes p region = true
     /\ Js.includes p emergency = true
     /\ Js.includes p (Server.languageInstruction lang) = true)
    /\ (let p := Rich.prompt numberToString weather crop region emergency lang in
     Js.includes p (description weather) = true
     /\ Js.includes p (Js.holeNumber numberToString (temp weather)) = true
     /\ Js.includes p (Js.holeNumber numberToString (wind weather)) = true
     /\ Js.includes p crop = true
     /\ Js.includes p region = true
     /\ Js.includes p emergency = true
     /\ Js.includes p (Rich.languageInstruction lang) = true)
    /\ (let p := Minimal.prompt numberToString weather crop emergency lang in
     Js.includes p (description weather) = true
     /\ Js.includes p (Js.holeNumber numberToString (temp weather)) = true
     /\ Js.includes p (Js.holeNumber numberToString (wind weather)) = true
     /\ Js.includes p crop = true
     /\ Js.includes p emergency = true
     /\ Js.includes p (Minimal.languageInstruction lang) = true)
    /\ Js.holeNumber numberToString None = "null"
    /\ Server.languageInstruction "hi" = "Hindi (Devanagari script)"
    /\ Rich.languageInstruction "hi" = "Hindi (use Devanagari script)"
    /\ Minimal.languageInstruction "hi" = "Hindi"
    /\ (lang <> "hi" ->
        Server.languageInstruction lang = "English"
        /\ Rich.languageInstruction lang = "English"
        /\ Minimal.languageInstruction lang = "English").
Proof.
  intros numberToString weather crop region emergency lang.
  split; [|split; [|split]].
  - unfold Server.prompt. cbv zeta. repeat split; find_in_template.
  - unfold Rich.prompt. cbv zeta. repeat split; find_in_template.
  - unfold Minimal.prompt. cbv zeta. repeat split; find_in_template.
  - do 4 (split; [reflexivity|]).
    intros ne. apply String.eqb_neq in ne.
    unfold Server.languageInstruction, Rich.languageInstruction,
      Minimal.languageInstruction.
    rewrite ne. repeat split.
Qed.

Section Decompose.

Variable instruction : string -> string.

Lemma decompose_here (rest : string) :
  exists before after,
    forall lang, instruction lang ++ rest = before ++ instruction lang ++ after.
Proof. exists "", rest. reflexivity. Qed.

Lemma decompose_step (a : string) (template : string -> string) :
  (exists before after,
     forall lang, template lang = before ++ instruction lang ++ after) ->
  exists before after,
    forall lang, a ++ template lang = before ++ instruction lang ++ after.
Proof.
  intros (before & after & E). exists (a ++ before), after.
  intros lang. rewrite E.
  induction a as [|c a IH]; simpl; [reflexivity | now rewrite IH].
Qed.

End Decompose.

Ltac split_at_instruction :=
  repeat apply decompose_step; apply decompose_here.

(** C8. For fixed weather, crop, region and alert, the prompt is a fixed
    text before the language instruction, the instruction, and a fixed text
    after it: two requests that differ only in [lang] get prompts that
    differ only in the instruction, which is the Hindi one for ["hi"] and
    the English one for every other value.  This holds for each of the
    three prompt templates. *)
Theorem prompt_differs_only_in_language_instruction :
  forall numberToString weather crop region emergency,
    (exists before after, forall lang,
       Server.prompt numberToString weather crop region emergency lang
       = before ++ Server.languageInstruction lang ++ after)
    /\ (exists before after, forall lang,
       Rich.prompt numberToString weather crop region emergency lang
       = before ++ Rich.languageInstruction lang ++ after)
    /\ (exists before after, forall lang,
       Minimal.prompt numberToString weather crop emergency lang
       = before ++ Minimal.languageInstruction lang ++ after)
    /\ (forall lang,
          Server.languageInstruction lang
          = if String.eqb lang "hi" then "Hindi (Devanagari script)" else "English")
    /\ (forall lang,
          Minimal.languageInstruction lang
          = if String.eqb lang "hi" then "Hindi" else "English").
Proof.
  intros numberToString weather crop region emergency.
  split; [|split; [|split; [|split]]].
  - unfold Server.prompt. split_at_instruction.
  - unfold Rich.prompt. split_at_instruction.
  - unfold Minimal.prompt. split_at_instruction.
  - reflexivity.
  - reflexivity.
Qed.

(** ** Replies *)

(** The run of the authenticated handler when both providers answer. *)
Lemma handler_success numberToString env up h q c r d aiResp advice log :
  Js.truthy (crop q) = Some c ->
  Js.truthy (region q) = Some r ->
  axios_get up (weatherUrl env r) = Ok d ->
  chat_completions_create up
    (Server.completionParams
       (Server.prompt numberToString (readingOf d) c r (getAlert (readingOf d))
          (langOrDefault q)))
  = Ok aiResp ->
  firstContent aiResp = Ok advice ->
  Server.handler numberToString env up h q log
  = (Ok (mkResponse 200
           (JObject [("success", JBool true);
                     ("data",
                      JObject [("crop", JString c);
                               ("region", JString r);
                               ("forecast",
                                JString (Server.forecast numberToString (readingOf d)));
                               ("daily_tip", Json.ofNullable advice);
                               ("emergency_alert", JString (getAlert (readingOf d)));
                               ("timestamp", JString (nowISOString h));
                               ("language", JString (langOrDefault q))])])),
     (log ++ [WeatherGet (weatherUrl env r)]
          ++ [ChatCompletionsCreate
                (Server.completionParams
                   (Server.prompt numberToString (readingOf d) c r
                      (getAlert (readingOf d)) (langOrDefault q)))])%list).
Proof.
  intros Hc Hr W G F. unfold Server.handler. rewrite Hc, Hr.
  unfold tryCatch, bind at 1. rewrite (getWeather_ok _ _ _ _ _ W).
  unfold bind, await, liftResult. rewrite G, F. cbn [ret].
  now rewrite <- app_assoc.
Qed.

Ltac run_handler :=
  unfold getWeather; unfold tryCatch, bind, await, liftResult, ret;
  repeat (cbv beta iota;
          match goal with
          | |- context [match ?x with _ => _ end] =>
              lazymatch x with
              | context [match _ with _ => _ end] => fail
              | _ => destruct x
              end
          end);
  cbv beta iota.

(** C9. Two runs of the same request against the same deterministic
    providers, whatever the clock (and the random draw) of each run, call
    the providers identically and reply with the same status and with
    Advisory payloads that are equal once the [timestamp] member is set
    aside; this holds for the authenticated and for the richer server.  On
    the fixtures the Advisory is present, and its timestamp is the only
    member that follows the clock. *)
Theorem advisory_equal_up_to_timestamp :
  forall numberToString numberToString36 env up q h1 h2 log,
    (exists r1 r2 calls,
       Server.handler numberToString env up h1 q log = (Ok r1, calls)
       /\ Server.handler numberToString env up h2 q log = (Ok r2, calls)
       /\ status r1 = status r2
       /\ option_map withoutTimestamp (advisory r1)
          = option_map withoutTimestamp (advisory r2))
    /\ (exists r1 r2 calls,
       Rich.handler numberToString numberToString36 env up h1 q log = (Ok r1, calls)
       /\ Rich.handler numberToString numberToString36 env up h2 q log = (Ok r2, calls)
       /\ status r1 = status r2
       /\ option_map withoutTimestamp (advisory r1)
          = option_map withoutTimestamp (advisory r2))
    /\ (forall now rnd,
       exists r,
         fst (Server.handler Fixture.numberToString Fixture.env Fixture.healthy
                (mkHost now rnd) Fixture.wheatInPunjab []) = Ok r
         /\ advisory r
            = Some (JObject [("crop", JString "wheat");
                             ("region", JString "Punjab");
                             ("forecast", JString "clear sky, 18°C, Wind: 5 km/h");
                             ("daily_tip", JString "Irrigate early in the day.");
                             ("emergency_alert", JString "No urgent issues.");
                             ("timestamp", JString now);
                             ("language", JString "hi")])).
Proof.
  intros numberToString numberToString36 env up q h1 h2 log.
  split; [|split].
  - unfold Server.handler. run_handler;
      do 3 eexists; repeat split; reflexivity.
  - unfold Rich.handler. run_handler;
      do 3 eexists; repeat split; reflexivity.
  - intros now rnd. eexists. split; reflexivity.
Qed.

(** A request the guard turns away reaches no provider. *)
Lemma guard_blocks_upstream numberToString env up h authorization q r log :
  Server.authenticateBearer env authorization = Respond r ->
  Server.getFarmerAdvice numberToString env up h authorization q log = (Ok r, log).
Proof. intros E. unfold Server.getFarmerAdvice. now rewrite E. Qed.

(** In the richer server the envelope of a success reply carries, next to
    the Advisory, a [metadata] member whose [request_id] follows the random
    draw of the run. *)
Lemma rich_request_id_follows_random now rnd :
  exists r,
    fst (Rich.handler Fixture.numberToString Fixture.numberToString36 Fixture.env
           Fixture.healthy (mkHost now rnd) Fixture.wheatInPunjab []) = Ok r
    /\ Json.get "metadata" (body r)
       = Some (JObject [("weather_source", JString "OpenWeatherMap");
                        ("ai_model", JString "GPT-4o-mini");
                        ("request_id",
                         JString (Js.substring 7 (Fixture.numberToString36 rnd)))]).
Proof. eexists. split; reflexivity. Qed.

(** * Further properties of the code *)

(** ** utils.js: the alert rules *)

(** No number is above 40 and below 25: on binary64 values [40 < n] puts
    the exponent of [n] at or above the one of 40, [n < 25] at or below the
    one of 25. *)
Lemma above_40_not_below_25 (t : option number) :
  Js.gt t 40 && Js.lt t 25 = false.
Proof.
  destruct t as [n|]; [|reflexivity].
  unfold Js.gt, Js.lt, Js.toNumber. rewrite !ltb_spec.
  change (Prim2SF 40) with (S754_finite false 5629499534213120 (-47)).
  change (Prim2SF 25) with (S754_finite false 7036874417766400 (-48)).
  destruct (Prim2SF n) as [s|s| |s m e];
    try (destruct s; reflexivity); try reflexivity.
  unfold SFltb, SFcompare. destruct s; [reflexivity|].
  destruct (Z.compare_spec (-47) e); destruct (Z.compare_spec e (-48));
    try lia; rewrite ?andb_false_r; try reflexivity.
  all: try (destruct (Pos.compare _ _); reflexivity).
Qed.

(** X1. No reading matches both the heatwave rule and the rain rule, so in
    [getAlert] the rain rule never overwrites a heatwave alert: a reading
    above 40 degrees gets the heatwave alert unless the wind rule
    matches. *)
Theorem heat_and_rain_never_both_match :
  forall weather : WeatherReading,
    Js.gt (temp weather) 40
    && (Js.includes (description weather) "rain" && Js.lt (temp weather) 25)
    = false
    /\ (Js.gt (temp weather) 40 = true ->
        getAlert weather
        = if Js.gt (wind weather) 40 then strongWindAlert else heatwaveAlert).
Proof.
  intros weather.
  pose proof (above_40_not_below_25 (temp weather)) as X.
  unfold getAlert.
  destruct (Js.gt (temp weather) 40); cbn [andb] in *; [|now split].
  rewrite X, andb_false_r. split; reflexivity.
Qed.

(** X2. The alert text tells which rule decided: the strong-wind message is
    returned exactly when the wind is above 40, the rain message exactly
    when the rain rule matches and the wind rule does not, the heatwave
    message exactly when the temperature is above 40 and the wind rule does
    not match, and "No urgent issues." exactly when no rule matches. *)
Theorem getAlert_identifies_rule :
  forall weather : WeatherReading,
    (getAlert weather = strongWindAlert <-> Js.gt (wind weather) 40 = true)
    /\ (getAlert weather = heavyRainAlert <->
        Js.gt (wind weather) 40 = false
        /\ Js.includes (description weather) "rain" = true
        /\ Js.lt (temp weather) 25 = true)
    /\ (getAlert weather = heatwaveAlert <->
        Js.gt (wind weather) 40 = false /\ Js.gt (temp weather) 40 = true)
    /\ (getAlert weather = noUrgentIssues <->
        Js.gt (wind weather) 40 = false
        /\ Js.gt (temp weather) 40 = false
        /\ Js.includes (description weather) "rain" && Js.lt (temp weather) 25
           = false).
Proof.
  intros weather.
  pose proof (above_40_not_below_25 (temp weather)) as X.
  unfold getAlert.
  destruct (Js.gt (wind weather) 40), (Js.gt (temp weather) 40),
    (Js.includes (description weather) "rain"), (Js.lt (temp weather) 25);
    cbn [andb] in *; try discriminate X;
    repeat split; intros; try reflexivity; try discriminate;
    repeat match goal with H : _ /\ _ |- _ => destruct H end; discriminate.
Qed.

Lemma includes_iff (s x : string) :
  Js.includes s x = true <-> exists before rest, s = before ++ x ++ rest.
Proof.
  split.
  - induction s as [|c s IH]; cbn [Js.includes]; intros H.
    + rewrite orb_false_r in H. apply (startsWith_split "" x) in H.
      exists "", (Js.substring (String.length x) ""). exact H.
    + apply orb_true_iff in H. destruct H as [H|H].
      * apply (startsWith_split (String c s) x) in H.
        exists "", (Js.substring (String.length x) (String c s)). exact H.
      * destruct (IH H) as (before & rest & ->).
        exists (String c before), rest. reflexivity.
  - intros (before & rest & ->). apply includes_skip, includes_here.
Qed.

(** X3. The rain rule looks for the four letters "rain" anywhere in the
    description, inside a longer word as well, and in lower case only: it
    matches exactly when the description is some text, "rain", some text,
    and the temperature compares below 25. *)
Theorem rain_rule_is_a_substring_test :
  forall weather : WeatherReading,
    (Js.includes (description weather) "rain" && Js.lt (temp weather) 25 = true
     <-> (exists before rest, description weather = before ++ "rain" ++ rest)
         /\ Js.lt (temp weather) 25 = true)
    /\ getAlert (mkReading "drainage works" (Some 10%float) (Some 3%float))
       = heavyRainAlert
    /\ getAlert (mkReading "Rain" (Some 10%float) (Some 3%float))
       = noUrgentIssues.
Proof.
  intros weather. split; [|split; reflexivity].
  rewrite andb_true_iff, includes_iff. reflexivity.
Qed.

(** ** utils.js: the reading *)

(** X4. The reading [getWeather] builds never has an empty description and
    never holds a falsy number ([0], [-0], [NaN]) as temperature or wind
    speed; of the provider's [weather] list only the first entry is
    read. *)
Theorem reading_is_normalised :
  forall d : OpenWeather.data,
    description (readingOf d) <> ""
    /\ (forall n, temp (readingOf d) = Some n -> Js.truthyNumber n = true)
    /\ (forall n, wind (readingOf d) = Some n -> Js.truthyNumber n = true)
    /\ (forall e others,
          OpenWeather.weather d = Some (e :: others) ->
          readingOf d
          = readingOf (OpenWeather.mkData (Some [e]) (OpenWeather.main d)
                         (OpenWeather.wind d))).
Proof.
  intros d. unfold readingOf. cbn [description temp wind].
  split; [|split; [|split]].
  - unfold Js.stringOr.
    destruct (firstDescription d) as [s|]; [|discriminate].
    destruct (Js.truthyString s) eqn:E; [|discriminate].
    now apply truthyString_nonempty.
  - intros n. unfold Js.numberOrNull.
    destruct (mainTemp d) as [m|]; [|discriminate].
    destruct (Js.truthyNumber m) eqn:E; [|discriminate]. now intros [= <-].
  - intros n. unfold Js.numberOrNull.
    destruct (windSpeed d) as [m|]; [|discriminate].
    destruct (Js.truthyNumber m) eqn:E; [|discriminate]. now intros [= <-].
  - intros e others E. unfold firstDescription, mainTemp, windSpeed.
    rewrite E. reflexivity.
Qed.

(** ** The request handlers *)

Ltac name_calls :=
  do 2 eexists;
  split;
  [ first [ reflexivity
          | rewrite <- app_assoc; reflexivity
          | f_equal; symmetry; apply app_nil_r ]
  | ].

Ltac case_parameters q :=
  let c := fresh "c" in
  let r := fresh "r" in
  let Hc := fresh "Hc" in
  let Hr := fresh "Hr" in
  destruct (Js.truthy (crop q)) as [c|] eqn:Hc;
  destruct (Js.truthy (region q)) as [r|] eqn:Hr.

Ltac sequential :=
  first
    [ now left
    | right; eexists; split; [eassumption|];
      first [ now left
            | right; do 2 eexists; repeat split; reflexivity ] ].

(** X5. Whatever the providers answer, a run of a handler (of any of the
    three servers) appends to the log of upstream calls nothing, or the
    weather request for the region asked for, or that request followed by
    one chat completion.  No provider is called twice, the generation
    provider is never called before or without the weather provider, and
    nothing is retried. *)
Theorem handlers_call_upstream_sequentially :
  forall numberToString numberToString36 env up h q log,
    (exists reply calls,
       Server.handler numberToString env up h q log = (Ok reply, (log ++ calls)%list)
       /\ sequentialCalls env q calls)
    /\ (exists reply calls,
       Rich.handler numberToString numberToString36 env up h q log
       = (Ok reply, (log ++ calls)%list)
       /\ sequentialCalls env q calls)
    /\ (exists reply calls,
       Minimal.handler numberToString env up q log = (Ok reply, (log ++ calls)%list)
       /\ sequentialCalls env q calls).
Proof.
  intros numberToString numberToString36 env up h q log.
  unfold Server.handler, Rich.handler, Minimal.handler.
  case_parameters q; (split; [|split]); run_handler; name_calls;
    unfold sequentialCalls; sequential.
Qed.

(** X6. The statuses a handler can answer with: 200, 400, 404 and 500 for
    the authenticated server (never 503), those and 503 for the richer
    server, and only 200, 400 and 500 for the minimal server (never
    404). *)
Theorem handler_status_codes :
  forall numberToString numberToString36 env up h q log,
    (exists reply calls,
       Server.handler numberToString env up h q log = (Ok reply, calls)
       /\ In (status reply) [200; 400; 404; 500]%Z)
    /\ (exists reply calls,
       Rich.handler numberToString numberToString36 env up h q log
       = (Ok reply, calls)
       /\ In (status reply) [200; 400; 404; 500; 503]%Z)
    /\ (exists reply calls,
       Minimal.handler numberToString env up q log = (Ok reply, calls)
       /\ In (status reply) [200; 400; 500]%Z).
Proof.
  intros numberToString numberToString36 env up h q log.
  unfold Server.handler, Rich.handler, Minimal.handler.
  case_parameters q; (split; [|split]); run_handler;
    do 2 eexists; (split; [reflexivity|]);
    unfold Server.onError, Rich.onError;
    repeat match goal with
           | |- context [if ?b then _ else _] => destruct b
           end;
    cbn; tauto.
Qed.

(** X7. When the weather request fails, the run ends there in every
    server: the weather request is the only upstream call, the generation
    provider is not reached, and the reply is the one of the [catch] block.
    The minimal server answers 500 with the error's message whatever the
    provider's status was, a 404 included. *)
Theorem weather_failure_ends_the_run :
  forall numberToString numberToString36 env up h q c r err log,
    Js.truthy (crop q) = Some c ->
    Js.truthy (region q) = Some r ->
    axios_get up (weatherUrl env r) = Throw err ->
    Server.handler numberToString env up h q log
    = (Ok (Server.onError r err), (log ++ [WeatherGet (weatherUrl env r)])%list)
    /\ Rich.handler numberToString numberToString36 env up h q log
       = (Ok (Rich.onError env r err), (log ++ [WeatherGet (weatherUrl env r)])%list)
    /\ Minimal.handler numberToString env up q log
       = (Ok (mkResponse 500 (JObject [("error", JString (message err))])),
          (log ++ [WeatherGet (weatherUrl env r)])%list).
Proof.
  intros numberToString numberToString36 env up h q c r err log Hc Hr E.
  unfold Server.handler, Rich.handler, Minimal.handler. rewrite Hc, Hr.
  unfold tryCatch, bind.
  rewrite (getWeather_throw _ _ _ _ _ E). repeat split.
Qed.

Lemma weather_failure_ends_the_run_witness :
  Js.truthy (crop Fixture.wheatInPunjab) = Some "wheat"
  /\ Js.truthy (region Fixture.wheatInPunjab) = Some "Punjab"
  /\ Minimal.handler Fixture.numberToString Fixture.env (Fixture.weatherFails 404)
       Fixture.wheatInPunjab []
     = (Ok (mkResponse 500 (JObject [("error", JString "Request failed")])),
        [WeatherGet (weatherUrl Fixture.env "Punjab")]).
Proof.
  split; [reflexivity|]. split; [reflexivity|].
  apply (weather_failure_ends_the_run Fixture.numberToString Fixture.numberToString36
           Fixture.env (Fixture.weatherFails 404) Fixture.clock Fixture.wheatInPunjab
           "wheat" "Punjab"
           (FromAxios (mkAxiosError (Some 404%Z) (Some "ERR_BAD_REQUEST")
                         "Request failed"))
           []); reflexivity.
Defined.

(** X8. A fault of the generation provider, quota exhaustion included, is
    answered by the authenticated server with 500 "Internal server error"
    whose message is the fault's own message (a fixed text when that is
    empty), and by the minimal server with 500 and the fault's message as
    [error]; both providers have been called once by then. *)
Theorem generation_fault_is_a_500 :
  forall numberToString env up h q c r d fault log,
    Js.truthy (crop q) = Some c ->
    Js.truthy (region q) = Some r ->
    axios_get up (weatherUrl env r) = Ok d ->
    (chat_completions_create up
       (Server.completionParams
          (Server.prompt numberToString (readingOf d) c r (getAlert (readingOf d))
             (langOrDefault q)))
     = Throw (FromOpenAI fault) ->
     Server.handler numberToString env up h q log
     = (Ok (mkResponse 500
              (JObject [("error", JString "Internal server error");
                        ("message",
                         JString (if String.eqb (api_message fault) ""
                                  then "Something went wrong while processing your request"
                                  else api_message fault))])),
        (log ++ [WeatherGet (weatherUrl env r);
                 ChatCompletionsCreate
                   (Server.completionParams
                      (Server.prompt numberToString (readingOf d) c r
                         (getAlert (readingOf d)) (langOrDefault q)))])%list))
    /\ (chat_completions_create up
          (Minimal.completionParams
             (Minimal.prompt numberToString (readingOf d) c (getAlert (readingOf d))
                (langOrDefault q)))
        = Throw (FromOpenAI fault) ->
        Minimal.handler numberToString env up q log
        = (Ok (mkResponse 500 (JObject [("error", JString (api_message fault))])),
           (log ++ [WeatherGet (weatherUrl env r);
                    ChatCompletionsCreate
                      (Minimal.completionParams
                         (Minimal.prompt numberToString (readingOf d) c
                            (getAlert (readingOf d)) (langOrDefault q)))])%list)).
Proof.
  intros numberToString env up h q c r d fault log Hc Hr W.
  unfold Server.handler, Minimal.handler. rewrite Hc, Hr.
  split; intros G; unfold tryCatch, bind at 1;
    rewrite (getWeather_ok _ _ _ _ _ W); unfold bind, await; rewrite G;
    cbn [ret]; rewrite <- app_assoc; [|reflexivity].
  unfold Server.onError. cbn [response_status statusIs message].
  unfold Js.stringOr, Js.truthyString.
  now destruct (String.eqb (api_message fault) "").
Qed.

Lemma generation_fault_is_a_500_witness :
  Js.truthy (crop Fixture.wheatInPunjab) = Some "wheat"
  /\ Js.truthy (region Fixture.wheatInPunjab) = Some "Punjab"
  /\ fst (Server.handler Fixture.numberToString Fixture.env
            (Fixture.generationFails Fixture.quotaFault) Fixture.clock
            Fixture.wheatInPunjab [])
     = Ok (mkResponse 500
             (JObject [("error", JString "Internal server error");
                       ("message", JString "You exceeded your current quota")]))
  /\ fst (Minimal.handler Fixture.numberToString Fixture.env
            (Fixture.generationFails Fixture.quotaFault) Fixture.wheatInPunjab [])
     = Ok (mkResponse 500
             (JObject [("error", JString "You exceeded your current quota")])).
Proof.
  split; [reflexivity|]. split; [reflexivity|].
  destruct (generation_fault_is_a_500 Fixture.numberToString Fixture.env
              (Fixture.generationFails Fixture.quotaFault) Fixture.clock
              Fixture.wheatInPunjab "wheat" "Punjab" Fixture.clearSky
              Fixture.quotaFault [] eq_refl eq_refl eq_refl) as [S M].
  split.
  - exact (f_equal fst (S eq_refl)).
  - exact (f_equal fst (M eq_refl)).
Defined.

Lemma other_handlers_reject_before_upstream_witness :
  (Js.truthy (crop (mkQuery (Some "") (Some "Punjab") None)) = None
   \/ Js.truthy (region (mkQuery (Some "") (Some "Punjab") None)) = None)
  /\ Rich.handler Fixture.numberToString Fixture.numberToString36 Fixture.env
       Fixture.healthy Fixture.clock (mkQuery (Some "") (Some "Punjab") None) []
     = (Ok Rich.missingRequiredParameters, [])
  /\ fst (Minimal.handler Fixture.numberToString Fixture.env Fixture.healthy
            (mkQuery (Some "") (Some "Punjab") None) [])
     = Ok (mkResponse 400 (JObject [("error", JString "Missing crop or region parameter")]))
  /\ snd (Minimal.handler Fixture.numberToString Fixture.env Fixture.healthy
            (mkQuery (Some "") (Some "Punjab") None) [])
     = [].
Proof.
  split; [left; reflexivity|].
  apply (other_handlers_reject_before_upstream Fixture.numberToString
           Fixture.numberToString36 Fixture.env Fixture.healthy Fixture.clock
           (mkQuery (Some "") (Some "Punjab") None) []).
  left; reflexivity.
Defined.



(** X11. On success the Advisory echoes the request and the providers: crop
    and region as asked, the alert [getAlert] derives from the reading, the
    text of the first choice of the completion as tip, unaltered (later
    choices are ignored, a [null] content gives a [null] tip), and the
    requested language code as it came, ["en"] when none came.  A code
    other than ["hi"] is echoed although the prompt asked for English. *)
Theorem success_reply_echoes_inputs :
  forall numberToString env up h q c r d first others log,
    Js.truthy (crop q) = Some c ->
    Js.truthy (region q) = Some r ->
    axios_get up (weatherUrl env r) = Ok d ->
    chat_completions_create up
      (Server.completionParams
         (Server.prompt numberToString (readingOf d) c r (getAlert (readingOf d))
            (langOrDefault q)))
    = Ok (OpenAI.mkCompletion (first :: others)) ->
    (exists reply,
       fst (Server.handler numberToString env up h q log) = Ok reply
       /\ status reply = 200%Z
       /\ advisory reply
          = Some (JObject [("crop", JString c);
                           ("region", JString r);
                           ("forecast",
                            JString (description (readingOf d) ++ ", " ++
                                     Js.holeNumber numberToString (temp (readingOf d)) ++
                                     "°C, Wind: " ++
                                     Js.holeNumber numberToString (wind (readingOf d)) ++
                                     " km/h"));
                           ("daily_tip", Json.ofNullable (OpenAI.message_content first));
                           ("emergency_alert", JString (getAlert (readingOf d)));
                           ("timestamp", JString (nowISOString h));
                           ("language", JString (langOrDefault q))]))
    /\ (lang q = None -> langOrDefault q = "en")
    /\ (forall l, lang q = Some l -> langOrDefault q = l)
    /\ (langOrDefault q <> "hi" ->
        Server.languageInstruction (langOrDefault q) = "English").
Proof.
  intros numberToString env up h q c r d first others log Hc Hr W G.
  split; [|split; [|split]].
  - eexists.
    rewrite (handler_success numberToString env up h q c r d
               (OpenAI.mkCompletion (first :: others))
               (OpenAI.message_content first) log Hc Hr W G eq_refl).
    repeat split.
  - unfold langOrDefault. now intros ->.
  - unfold langOrDefault. now intros l ->.
  - intros ne. unfold Server.languageInstruction.
    apply String.eqb_neq in ne. now rewrite ne.
Qed.

Lemma success_reply_echoes_inputs_witness :
  Js.truthy (crop (mkQuery (Some "wheat") (Some "Punjab") (Some "fr"))) = Some "wheat"
  /\ Js.truthy (region (mkQuery (Some "wheat") (Some "Punjab") (Some "fr")))
     = Some "Punjab"
  /\ (exists reply,
        fst (Server.handler Fixture.numberToString Fixture.env Fixture.healthy
               Fixture.clock (mkQuery (Some "wheat") (Some "Punjab") (Some "fr")) [])
        = Ok reply
        /\ status reply = 200%Z
        /\ advisory reply
           = Some (JObject [("crop", JString "wheat");
                            ("region", JString "Punjab");
                            ("forecast", JString "clear sky, 18°C, Wind: 5 km/h");
                            ("daily_tip", JString "Irrigate early in the day.");
                            ("emergency_alert", JString "No urgent issues.");
                            ("timestamp", JString "2024-08-10T10:30:00.000Z");
                            ("language", JString "fr")])).
Proof.
  split; [reflexivity|]. split; [reflexivity|].
  apply (success_reply_echoes_inputs Fixture.numberToString Fixture.env
           Fixture.healthy Fixture.clock
           (mkQuery (Some "wheat") (Some "Punjab") (Some "fr"))
           "wheat" "Punjab" Fixture.clearSky
           (OpenAI.mkChoice (Some "Irrigate early in the day.")) [] []);
    reflexivity.
Defined.

(** X12. Outside development mode ([NODE_ENV] other than "development") the
    error reply of the richer server does not depend on the error's
    message: two errors with the same [response.status] and the same [code]
    get the same reply. *)
Theorem rich_errors_hide_the_message :
  forall env r e1 e2,
    stringIs (NODE_ENV env) "development" = false ->
    response_status e1 = response_status e2 ->
    code e1 = code e2 ->
    Rich.onError env r e1 = Rich.onError env r e2.
Proof.
  intros env r e1 e2 Dev S C. unfold Rich.onError. now rewrite S, C, Dev.
Qed.

Lemma rich_errors_hide_the_message_witness :
  stringIs (NODE_ENV Fixture.env) "development" = false
  /\ Rich.onError Fixture.env "Punjab" (FromOpenAI Fixture.serverFault)
     = Rich.onError Fixture.env "Punjab"
         (FromOpenAI (mkAPIError (Some 500%Z) (Some "server_error") "database password")).
Proof.
  split; [reflexivity|].
  apply (rich_errors_hide_the_message Fixture.env "Punjab"
           (FromOpenAI Fixture.serverFault)
           (FromOpenAI (mkAPIError (Some 500%Z) (Some "server_error")
                          "database password"))); reflexivity.
Defined.

(** In development mode the generic 500 reply of the richer server
    carries the error's message as [details]; in any other mode it has no
    [details] member. *)
Theorem rich_details_only_in_development :
  forall env r err,
    statusIs (response_status err) 404 = false ->
    stringIs (code err) "insufficient_quota" = false ->
    status (Rich.onError env r err) = 500%Z
    /\ Json.get "details" (body (Rich.onError env r err))
       = if stringIs (NODE_ENV env) "development"
         then Some (JString (message err))
         else None.
Proof.
  intros env r err S C. unfold Rich.onError. rewrite S, C.
  now destruct (stringIs (NODE_ENV env) "development").
Qed.

Lemma rich_details_only_in_development_witness :
  statusIs (response_status (FromOpenAI Fixture.serverFault)) 404 = false
  /\ stringIs (code (FromOpenAI Fixture.serverFault)) "insufficient_quota" = false
  /\ status (Rich.onError (mkEnv None None (Some "development")) "Punjab"
               (FromOpenAI Fixture.serverFault)) = 500%Z
  /\ Json.get "details"
       (body (Rich.onError (mkEnv None None (Some "development")) "Punjab"
                (FromOpenAI Fixture.serverFault)))
     = Some (JString "The server had an error while processing your request").
Proof.
  split; [reflexivity|]. split; [reflexivity|].
  apply (rich_details_only_in_development (mkEnv None None (Some "development"))
           "Punjab" (FromOpenAI Fixture.serverFault)); reflexivity.
Defined.

(** ** The guards and the routes *)

Lemma guards_answer_alike_aux env authHeader :
  (forall r, Server.authenticateBearer env authHeader = Respond r ->
             status r = 401%Z \/ status r = 500%Z)
  /\ (forall r, Rich.authenticateBearer env authHeader = Respond r ->
             status r = 401%Z \/ status r = 500%Z).
Proof.
  unfold Rich.authenticateBearer, Server.authenticateBearer.
  destruct authHeader as [hd|];
    [|split; intros r [= <-]; now left].
  destruct (negb (Js.truthyString hd) || negb (Js.startsWith hd "Bearer "));
    [split; intros r [= <-]; now left|].
  destruct (Js.truthy (MCP_BEARER_TOKEN env)) as [s|];
    [|split; intros r [= <-]; now right].
  destruct (negb (String.eqb (Js.substring 7 hd) s));
    split; intros r; try discriminate; intros [= <-]; now left.
Qed.

(** X13. The guard of the richer server and the guard of the authenticated
    server decide every request alike: both let it through, or both answer
    with the same status, which is 401 or 500. *)
Theorem guards_answer_alike :
  forall env authHeader,
    guardStatus (Rich.authenticateBearer env authHeader)
    = guardStatus (Server.authenticateBearer env authHeader)
    /\ In (guardStatus (Server.authenticateBearer env authHeader))
          [None; Some 401%Z; Some 500%Z].
Proof.
  intros env authHeader.
  unfold Rich.authenticateBearer, Server.authenticateBearer.
  destruct authHeader as [hd|]; [|cbn; tauto].
  destruct (negb (Js.truthyString hd) || negb (Js.startsWith hd "Bearer "));
    [cbn; tauto|].
  destruct (Js.truthy (MCP_BEARER_TOKEN env)) as [s|]; [|cbn; tauto].
  destruct (negb (String.eqb (Js.substring 7 hd) s)); cbn; tauto.
Qed.

(** X14. The guard runs before the handler: a request it does not let
    through is answered 401 or 500 by the route, whatever its query
    parameters, and no provider is called. *)
Theorem route_answers_for_the_guard :
  forall numberToString numberToString36 env up h authorization q log,
    Server.authenticateBearer env authorization <> Next ->
    (exists reply,
       Server.getFarmerAdvice numberToString env up h authorization q log
       = (Ok reply, log)
       /\ (status reply = 401%Z \/ status reply = 500%Z))
    /\ (exists reply,
       Rich.getFarmerAdvice numberToString numberToString36 env up h authorization q log
       = (Ok reply, log)
       /\ (status reply = 401%Z \/ status reply = 500%Z)).
Proof.
  intros numberToString numberToString36 env up h authorization q log No.
  assert (Rich.authenticateBearer env authorization <> Next) as NoR
    by (intros E; apply No; now apply rich_guard_decides_alike).
  unfold Server.getFarmerAdvice, Rich.getFarmerAdvice.
  destruct (guards_answer_alike_aux env authorization) as [S R].
  destruct (Server.authenticateBearer env authorization) as [|rs]; [now elim No|].
  destruct (Rich.authenticateBearer env authorization) as [|rr]; [now elim NoR|].
  split; eexists; (split; [reflexivity|]); [apply S | apply R]; reflexivity.
Qed.

Lemma route_answers_for_the_guard_witness :
  Server.authenticateBearer Fixture.env (Some "Bearer wrong") <> Next
  /\ exists reply,
       Server.getFarmerAdvice Fixture.numberToString Fixture.env Fixture.healthy
         Fixture.clock (Some "Bearer wrong") Fixture.wheatInPunjab []
       = (Ok reply, [])
       /\ (status reply = 401%Z \/ status reply = 500%Z).
Proof.
  split; [discriminate|].
  apply (route_answers_for_the_guard Fixture.numberToString Fixture.numberToString36
           Fixture.env Fixture.healthy Fixture.clock (Some "Bearer wrong")
           Fixture.wheatInPunjab []).
  discriminate.
Defined.

(** X15. [GET /test-auth] of the richer server answers 200 exactly for the
    requests the guard of [GET /get-farmer-advice] lets through: a
    non-empty secret is configured and the header is ["Bearer "] followed
    by it. *)
Theorem testAuth_probes_the_guard :
  forall env h authorization,
    status (Rich.testAuth env h authorization) = 200%Z
    <-> exists secret,
          MCP_BEARER_TOKEN env = Some secret /\ secret <> "" /\
          authorization = Some ("Bearer " ++ secret).
Proof.
  intros env h authorization.
  rewrite <- authenticateBearer_next, <- rich_guard_decides_alike.
  unfold Rich.testAuth.
  destruct (guards_answer_alike_aux env authorization) as [_ R].
  destruct (Rich.authenticateBearer env authorization) as [|r].
  - split; reflexivity.
  - split; [|discriminate]. intros E.
    destruct (R r eq_refl) as [F|F]; rewrite F in E; discriminate.
Qed.

(** X16. [GET /health] of the richer server reports [auth_configured] as
    true exactly when the guard can let a request through, that is, when
    no well-formed bearer header is answered with the 500 of a missing
    secret. *)
Theorem health_reports_the_guard_configuration :
  forall env OPENAI_API_KEY h uptime,
    status (Rich.health env OPENAI_API_KEY h uptime) = 200%Z
    /\ exists configured,
         option_map (Json.get "auth_configured")
           (Json.get "environment" (body (Rich.health env OPENAI_API_KEY h uptime)))
         = Some (Some (JBool configured))
         /\ (configured = true <->
             exists authorization, Rich.authenticateBearer env authorization = Next)
         /\ (configured = false <->
             forall token,
               Rich.authenticateBearer env (Some ("Bearer " ++ token))
               = Respond Rich.serverMisconfiguration).
Proof.
  intros env OPENAI_API_KEY h uptime. split; [reflexivity|].
  exists (Js.toBoolean (MCP_BEARER_TOKEN env)). split; [reflexivity|].
  assert (forall token,
            Rich.authenticateBearer env (Some ("Bearer " ++ token))
            = match Js.truthy (MCP_BEARER_TOKEN env) with
              | None => Respond Rich.serverMisconfiguration
              | Some s => if negb (String.eqb token s)
                          then Respond Rich.invalidAuthentication else Next
              end) as G.
  { intros token. unfold Rich.authenticateBearer.
    change (Js.truthyString ("Bearer " ++ token)) with true.
    unfold Js.startsWith. now rewrite prefix_app. }
  assert (Js.truthy (MCP_BEARER_TOKEN env) = None ->
          ~ exists authorization, Rich.authenticateBearer env authorization = Next)
    as Closed.
  { intros Tr [a N].
    apply rich_guard_decides_alike, authenticateBearer_next in N.
    destruct N as (s & E & ne & _).
    assert (Js.truthy (MCP_BEARER_TOKEN env) = Some s) by now apply truthy_Some.
    congruence. }
  unfold Js.toBoolean, Js.truthy in *.
  destruct (MCP_BEARER_TOKEN env) as [s|];
    [destruct (Js.truthyString s)|].
  - split; split.
    + intros _. exists (Some ("Bearer " ++ s)).
      rewrite G, String.eqb_refl. reflexivity.
    + reflexivity.
    + discriminate.
    + intros F. specialize (F s). rewrite G, String.eqb_refl in F. discriminate.
  - split; split.
    + discriminate.
    + intros N. now elim (Closed eq_refl).
    + intros _ token. apply G.
    + reflexivity.
  - split; split.
    + discriminate.
    + intros N. now elim (Closed eq_refl).
    + intros _ token. apply G.
    + reflexivity.
Qed.
